(** * CopyStyledLinkButton: the two clipboard link copiers

    A shallow embedding of [src/CopyStyledLinkButton.tsx].  The file holds
    two React components; each owns one click handler:

    - [copyFormattedLink] (component [CopyLinkButton]) builds an HTML
      fragment and a plain-text string, writes both with
      [navigator.clipboard.write], and falls back to a hidden [textarea]
      and [document.execCommand("copy")] when the write fails;
    - [copyStyledLink] (component [CopyStyledLinkButton]) always uses a
      hidden [div], a document range and [document.execCommand("copy")].

    The handlers are effectful.  The embedding threads a [World] (clipboard,
    DOM objects, children of the body, selection, notifications, console)
    through a small state-and-exception monad, [Js].  What the browser
    decides is a parameter, [Platform]: the clipboard write resolves, rejects
    or is not there at all, and the copy command returns true, returns false
    or throws.  Whether [window.getSelection()] is null is part of the
    world. *)

From Stdlib Require Import String Ascii List.
From stdpp Require Import base strings list gmap.

Open Scope string_scope.

(** ** Text helpers *)

Module Text.

(** The double-quote character, and a string between double quotes. *)
Definition dq : string := String (ascii_of_nat 34) EmptyString.
Definition nl : string := String (ascii_of_nat 10) EmptyString.

Definition q (s : string) : string := dq +:+ s +:+ dq.

(** The lines of a template literal, joined by line feeds. *)
Fixpoint unlines (ls : list string) : string :=
  match ls with
  | [] => EmptyString
  | [l] => l
  | l :: ls' => l +:+ nl +:+ unlines ls'
  end.

Definition is_space (c : ascii) : bool :=
  match nat_of_ascii c with
  | 9 | 10 | 12 | 13 | 32 => true
  | _ => false
  end.

Definition snoc (s : string) (c : ascii) : string :=
  s +:+ String c EmptyString.

Fixpoint drop_spaces (s : string) : string :=
  match s with
  | String c s' => if is_space c then drop_spaces s' else s
  | EmptyString => EmptyString
  end.

Definition rev_string (s : string) : string :=
  string_of_list_ascii (rev (list_ascii_of_string s)).

(** Leading and trailing white space removed. *)
Definition trim (s : string) : string :=
  rev_string (drop_spaces (rev_string (drop_spaces s))).

(** The characters before the first occurrence of [stop]. *)
Fixpoint take_until (stop : ascii) (s : string) : string :=
  match s with
  | EmptyString => EmptyString
  | String c s' =>
      if Ascii.eqb c stop then EmptyString else String c (take_until stop s')
  end.

(** Does [c] occur in [s]? *)
Fixpoint has_char (c : ascii) (s : string) : bool :=
  match s with
  | EmptyString => false
  | String c' s' => Ascii.eqb c' c || has_char c s'
  end.

(** [s] without its first [n] characters. *)
Fixpoint drop_chars (n : nat) (s : string) : string :=
  match n, s with
  | S n', String _ s' => drop_chars n' s'
  | _, _ => s
  end.

(** [s] cut at the first occurrence of [marker]: what stands before it and
    what stands after it. *)
Fixpoint split_on (marker s : string) : option (string * string) :=
  if String.prefix marker s then
    Some (EmptyString, drop_chars (String.length marker) s)
  else
    match s with
    | EmptyString => None
    | String c s' =>
        match split_on marker s' with
        | Some (before, after) => Some (String c before, after)
        | None => None
        end
    end.

End Text.

(** ** The markup the handlers build *)

Module Markup.
Import Text.

(** [copyFormattedLink], line 5. *)
Definition url : string := "https://your-domain.com/your-path".

(** [copyFormattedLink], lines 6-45: the template literal with [${url}]
    interpolated twice, once in the [mso] conditional comment and once in
    the standard branch. *)
Definition buttonHtml (url : string) : string :=
  unlines
    [ EmptyString
    ; "      <!--[if mso]>"
    ; "      <div style=" +:+ q "display: inline-block; mso-hide:all;" +:+ ">"
    ; "        <a href=" +:+ q url +:+ " style=" +:+ q "text-decoration: none;" +:+ ">"
    ; "          <v:roundrect xmlns:v=" +:+ q "urn:schemas-microsoft-com:vml"
    ; "            xmlns:w=" +:+ q "urn:schemas-microsoft-com:office:word"
    ; "            style=" +:+ q "height:38px;width:120px;"
    ; "            arcsize=" +:+ q "10%"
    ; "            strokecolor=" +:+ q "#ff4444"
    ; "            fillcolor=" +:+ q "#ff4444" +:+ ">"
    ; "            <v:textbox inset=" +:+ q "0,0,0,0" +:+ ">"
    ; "              <center style=" +:+ dq +:+ "color:#ffffff;"
    ; "                font-family:Arial,sans-serif;"
    ; "                font-size:14px;"
    ; "                margin-top: 9px;" +:+ dq +:+ ">"
    ; "                Click Here"
    ; "              </center>"
    ; "            </v:textbox>"
    ; "          </v:roundrect>"
    ; "        </a>"
    ; "      </div>"
    ; "      <![endif]-->"
    ; "      <!--[if !mso]><!-- -->"
    ; "      <a href=" +:+ q url
    ; "         style=" +:+ dq
    ; "           display: inline-block;"
    ; "           background-color: #ff4444;"
    ; "           color: white !important;"
    ; "           padding: 8px 16px;"
    ; "           text-decoration: none;"
    ; "           border-radius: 4px;"
    ; "           font-family: Arial, sans-serif;"
    ; "           font-size: 14px;"
    ; "           border: 0;"
    ; "           mso-hide:all;"
    ; "         " +:+ dq +:+ ">"
    ; "        Click Here"
    ; "      </a>"
    ; "      <!--<![endif]-->"
    ; "    " ].

(** [copyFormattedLink], lines 47-52. *)
Definition fullHtml (buttonHtml : string) : string :=
  unlines
    [ EmptyString
    ; "      <meta http-equiv=" +:+ q "Content-Type"
        +:+ " content=" +:+ q "text/html; charset=utf-8" +:+ ">"
    ; "      <div style=" +:+ q "mso-hide:all; display: inline-block;" +:+ ">"
    ; "        " +:+ buttonHtml
    ; "      </div>"
    ; "    " ].

(** [copyStyledLink], lines 107-117. *)
Definition html : string :=
  unlines
    [ EmptyString
    ; "      <a href=" +:+ q "https://example.com" +:+ " style=" +:+ dq
    ; "        display: inline-block;"
    ; "        padding: 8px 16px;"
    ; "        background-color: #0078D4;"
    ; "        color: white;"
    ; "        text-decoration: none;"
    ; "        border-radius: 6px;"
    ; "        font-family: 'Segoe UI', sans-serif;"
    ; "        font-size: 14px;"
    ; "      " +:+ dq +:+ ">Click Me</a>" ].

End Markup.

(** ** Reading anchors out of markup

    The specification speaks of the anchors of an HTML string: their [href]
    targets, their [style] and their label.  [anchors] scans a string for every
    [<a ...>] start tag, wherever it stands (also inside the conditional
    comments that wrap the [mso] branch), and reads its double-quoted
    attributes and the text up to the next tag. *)

Module Html.
Import Text.

Inductive TagState : Type :=
| BeforeName
| InName (name : string)
| AfterEq (name : string)
| InValue (name value : string).

(** Attributes of a start tag, and the text that follows its [>]. *)
Fixpoint start_tag (st : TagState) (s : string)
  : list (string * string) * string :=
  match s with
  | EmptyString => ([], EmptyString)
  | String c rest =>
      match st with
      | BeforeName =>
          if Ascii.eqb c ">" then ([], rest)
          else if is_space c then start_tag BeforeName rest
          else start_tag (InName (String c EmptyString)) rest
      | InName n =>
          if Ascii.eqb c ">" then ([], rest)
          else if Ascii.eqb c "=" then start_tag (AfterEq n) rest
          else if is_space c then start_tag BeforeName rest
          else start_tag (InName (snoc n c)) rest
      | AfterEq n =>
          if Ascii.eqb c (ascii_of_nat 34) then start_tag (InValue n EmptyString) rest
          else if Ascii.eqb c ">" then ([], rest)
          else start_tag BeforeName rest
      | InValue n v =>
          if Ascii.eqb c (ascii_of_nat 34) then
            let '(attrs, rest') := start_tag BeforeName rest in
            ((n, v) :: attrs, rest')
          else start_tag (InValue n (snoc v c)) rest
      end
  end.

Record Anchor : Type := mkAnchor {
  attributes : list (string * string);
  label : string
}.

Fixpoint attribute (name : string) (attrs : list (string * string))
  : option string :=
  match attrs with
  | [] => None
  | (n, v) :: attrs' =>
      if String.eqb n name then Some v else attribute name attrs'
  end.

Definition href (a : Anchor) : option string := attribute "href" (attributes a).
Definition style (a : Anchor) : option string := attribute "style" (attributes a).

(** Does [s] open an anchor: [<a] followed by white space or [>]? *)
Definition opens_anchor (s : string) : option string :=
  match s with
  | String "<" (String "a" (String c rest)) =>
      if is_space c || Ascii.eqb c ">" then Some (String c rest) else None
  | _ => None
  end.

Fixpoint anchors (s : string) : list Anchor :=
  match s with
  | EmptyString => []
  | String _ rest =>
      match opens_anchor s with
      | Some tag =>
          let '(attrs, body) := start_tag BeforeName tag in
          mkAnchor attrs (take_until "<" body) :: anchors rest
      | None => anchors rest
      end
  end.

(** The text of a fragment with every tag left out. *)
Fixpoint strip_tags (in_tag : bool) (s : string) : string :=
  match s with
  | EmptyString => EmptyString
  | String c rest =>
      if in_tag then strip_tags (negb (Ascii.eqb c ">")) rest
      else if Ascii.eqb c "<" then strip_tags true rest
      else String c (strip_tags false rest)
  end.

(** What a rendering surface shows for a fragment: its text, without the
    white space around it. *)
Definition innerText (s : string) : string := trim (strip_tags false s).

(** Is [s] markup for exactly one anchor, carrying a style, with the given
    label and target? *)
Definition is_styled_anchor (s label' target : string) : bool :=
  match anchors s with
  | [a] =>
      match href a, style a with
      | Some t, Some st =>
          String.eqb t target && String.eqb (label a) label'
          && negb (String.eqb (trim st) EmptyString)
      | _, _ => false
      end
  | _ => false
  end.

End Html.

(** ** The browser: state, failures and the capabilities the handlers call *)

Module Browser.

(** A DOM element, with the properties the handlers set. *)
Record Element : Type := mkElement {
  tagName : string;
  value : string;
  innerHTML : string;
  style : gmap string string;
  contentEditable : string
}.

(** A range: as [document.createRange()] returns it, or set to the
    contents of a node by [selectNodeContents]. *)
Inductive Range : Type :=
| Collapsed
| NodeContents (node : nat).

Record Blob : Type := mkBlob {
  blob_parts : list string;
  blob_type : string
}.

Definition blob_text (b : Blob) : string :=
  foldr String.append EmptyString (blob_parts b).

(** A [ClipboardItem]: an object from MIME type to blob. *)
Abbreviation ClipboardItem := (gmap string Blob).

Inductive Exn : Type :=
| ClipboardUnavailable   (* no [navigator.clipboard] or no [ClipboardItem] *)
| ClipboardRejected      (* the promise of [clipboard.write] rejects *)
| CopyCommandError       (* [document.execCommand] throws *)
| NotFoundError.         (* [removeChild] of a node that is not a child *)

Record World : Type := mkWorld {
  clipboard : gmap string string;     (* MIME type to content *)
  heap : gmap nat Element;            (* DOM objects, by identity *)
  next_node : nat;                    (* identity of the next object *)
  body : list nat;                    (* children of [document.body] *)
  selection : option (list Range);    (* [None]: [getSelection()] is null *)
  selected_control : option nat;      (* text control selected by [select()] *)
  alerts : list string;               (* messages shown by [alert] *)
  console : list (string * option Exn) (* [console.error] calls *)
}.

Inductive Outcome (A : Type) : Type :=
| Returned (a : A) (w : World)
| Thrown (e : Exn) (w : World).
Arguments Returned {A} a w.
Arguments Thrown {A} e w.

Definition world_of {A} (o : Outcome A) : World :=
  match o with Returned _ w | Thrown _ w => w end.

Definition returns {A} (o : Outcome A) : bool :=
  match o with Returned _ _ => true | Thrown _ _ => false end.

(** A computation of the page: it reads and changes the world, and either
    returns or throws.  For the [async] handler, returning is the promise
    fulfilling and throwing is the promise rejecting. *)
Definition Js (A : Type) : Type := World -> Outcome A.

Definition ret {A} (a : A) : Js A := fun w => Returned a w.
Definition throw {A} (e : Exn) : Js A := fun w => Thrown e w.

Definition bind {A B} (m : Js A) (k : A -> Js B) : Js B :=
  fun w =>
    match m w with
    | Returned a w' => k a w'
    | Thrown e w' => Thrown e w'
    end.

(** [try { m } catch (err) { handler err }] *)
Definition try_catch {A} (m : Js A) (handler : Exn -> Js A) : Js A :=
  fun w =>
    match m w with
    | Returned a w' => Returned a w'
    | Thrown e w' => handler e w'
    end.

Declare Scope js_scope.
Delimit Scope js_scope with js.
Bind Scope js_scope with Js.
Notation "'let*' x ':=' m 'in' k" :=
  (bind m (fun x => k))
    (at level 10, x name, m at level 100, k at level 200) : js_scope.
Notation "m ';;;' k" :=
  (bind m (fun _ => k))
    (at level 100, k at level 200, right associativity) : js_scope.

(** *** State updates *)

Definition set_clipboard (c : gmap string string) (w : World) : World :=
  mkWorld c (heap w) (next_node w) (body w) (selection w)
          (selected_control w) (alerts w) (console w).

Definition set_heap (h : gmap nat Element) (w : World) : World :=
  mkWorld (clipboard w) h (next_node w) (body w) (selection w)
          (selected_control w) (alerts w) (console w).

Definition set_body (b : list nat) (w : World) : World :=
  mkWorld (clipboard w) (heap w) (next_node w) b (selection w)
          (selected_control w) (alerts w) (console w).

Definition set_selection (s : option (list Range)) (w : World) : World :=
  mkWorld (clipboard w) (heap w) (next_node w) (body w) s
          (selected_control w) (alerts w) (console w).

Definition set_selected_control (c : option nat) (w : World) : World :=
  mkWorld (clipboard w) (heap w) (next_node w) (body w) (selection w)
          c (alerts w) (console w).

(** *** What may fail, and how *)

Inductive WriteBehaviour : Type :=
| WriteResolves
| WriteRejects
| WriteUnavailable.

Inductive CopyBehaviour : Type :=
| CopyTrue
| CopyFalse
| CopyThrows.

#[global] Instance WriteBehaviour_eq_dec : EqDecision WriteBehaviour.
Proof. solve_decision. Defined.

#[global] Instance CopyBehaviour_eq_dec : EqDecision CopyBehaviour.
Proof. solve_decision. Defined.

Record Platform : Type := mkPlatform {
  clipboard_write : WriteBehaviour;   (* [navigator.clipboard.write] *)
  exec_copy : CopyBehaviour           (* [document.execCommand("copy")] *)
}.

(** *** Notifications *)

Definition alert (msg : string) : Js unit :=
  fun w =>
    Returned tt
      (mkWorld (clipboard w) (heap w) (next_node w) (body w) (selection w)
               (selected_control w) (alerts w ++ [msg])%list (console w)).

Definition console_error (msg : string) (err : option Exn) : Js unit :=
  fun w =>
    Returned tt
      (mkWorld (clipboard w) (heap w) (next_node w) (body w) (selection w)
               (selected_control w) (alerts w) (console w ++ [(msg, err)])%list).

(** *** The document *)

Definition document_createElement (tag : string) : Js nat :=
  fun w =>
    let n := next_node w in
    Returned n
      (mkWorld (clipboard w)
               (<[n := mkElement tag EmptyString EmptyString ∅ "inherit"]> (heap w))
               (S n) (body w) (selection w) (selected_control w)
               (alerts w) (console w)).

Definition update_element (n : nat) (f : Element -> Element) : Js unit :=
  fun w => Returned tt (set_heap (alter f n (heap w)) w).

Definition set_value (n : nat) (v : string) : Js unit :=
  update_element n (fun e =>
    mkElement (tagName e) v (innerHTML e) (style e) (contentEditable e)).

Definition set_innerHTML (n : nat) (h : string) : Js unit :=
  update_element n (fun e =>
    mkElement (tagName e) (value e) h (style e) (contentEditable e)).

Definition set_style (n : nat) (property v : string) : Js unit :=
  update_element n (fun e =>
    mkElement (tagName e) (value e) (innerHTML e)
              (<[property := v]> (style e)) (contentEditable e)).

Definition set_contentEditable (n : nat) (v : string) : Js unit :=
  update_element n (fun e =>
    mkElement (tagName e) (value e) (innerHTML e) (style e) v).

Definition without (n : nat) (l : list nat) : list nat :=
  filter (fun m => m ≠ n) l.

(** [document.body.appendChild(n)]: [n] becomes the last child; a node
    that is already a child is moved. *)
Definition document_body_appendChild (n : nat) : Js unit :=
  fun w => Returned tt (set_body (without n (body w) ++ [n])%list w).

(** [document.body.removeChild(n)]: throws when [n] is not a child; a
    removed text control is no longer the selected one. *)
Definition document_body_removeChild (n : nat) : Js unit :=
  fun w =>
    if decide (n ∈ body w) then
      Returned tt
        (set_selected_control
           (if decide (selected_control w = Some n) then None
            else selected_control w)
           (set_body (without n (body w)) w))
    else Thrown NotFoundError w.

(** [n.select()] on a text control. *)
Definition select (n : nat) : Js unit :=
  fun w => Returned tt (set_selected_control (Some n) w).

Definition document_createRange : Js Range := ret Collapsed.

Definition selectNodeContents (r : Range) (n : nat) : Range := NodeContents n.

(** [window.getSelection()]: the selection object, or null. *)
Definition window_getSelection : Js (option unit) :=
  fun w => Returned (match selection w with Some _ => Some tt | None => None end) w.

Definition removeAllRanges : Js unit :=
  fun w =>
    Returned tt
      (set_selection (match selection w with Some _ => Some [] | None => None end) w).

(** [addRange(r)]: the document selection takes over from a selected
    text control. *)
Definition addRange (r : Range) : Js unit :=
  fun w =>
    Returned tt
      (set_selected_control None
         (set_selection
            (match selection w with Some rs => Some (rs ++ [r])%list | None => None end)
            w)).

(** [selection?.m()] *)
Definition optional_call (selection : option unit) (m : Js unit) : Js unit :=
  match selection with
  | Some _ => m
  | None => ret tt
  end.

(** *** The clipboard *)

(** What the copy command takes from the page: the value of the selected
    text control as plain text, or else the contents of the first selected
    range as HTML together with its rendered text.  Only content attached
    to the document can be copied. *)
Definition copied_payload (w : World) : option (gmap string string) :=
  match selected_control w with
  | Some n =>
      match heap w !! n with
      | Some e =>
          if decide (n ∈ body w) then Some {[ "text/plain" := value e ]}
          else None
      | None => None
      end
  | None =>
      match selection w with
      | Some (NodeContents n :: _) =>
          match heap w !! n with
          | Some e =>
              if decide (n ∈ body w) then
                Some (<[ "text/html" := innerHTML e ]>
                        {[ "text/plain" := Html.innerText (innerHTML e) ]})
              else None
          | None => None
          end
      | _ => None
      end
  end.

(** The two representations of the clipboard the specification speaks of. *)
Definition plain_text (w : World) : option string := clipboard w !! "text/plain".
Definition html_text (w : World) : option string := clipboard w !! "text/html".

(** The ranges of the document selection; none without a selection
    object. *)
Definition ranges (w : World) : list Range := default [] (selection w).

(** A page with nothing on the clipboard, an empty body and an empty
    selection. *)
Definition empty_page : World := mkWorld ∅ ∅ 0 [] (Some []) None [] [].

(** A page with two children in its body, a text on the clipboard and one
    range selected. *)
Definition busy_page : World :=
  mkWorld {[ "text/plain" := "kept" ]} ∅ 3 [0; 2] (Some [Collapsed]) None [] [].


Section Capabilities.
Variable P : Platform.

(** [document.execCommand("copy")]: a successful copy replaces the
    content of the clipboard by what is selected, if anything is. *)
Definition document_execCommand_copy : Js bool :=
  fun w =>
    match exec_copy P with
    | CopyThrows => Thrown CopyCommandError w
    | CopyFalse => Returned false w
    | CopyTrue =>
        Returned true
          (set_clipboard (default (clipboard w) (copied_payload w)) w)
    end.

(** [await navigator.clipboard.write(items)]: on success the clipboard
    holds the representations of the written items and nothing else. *)
Definition navigator_clipboard_write (items : list ClipboardItem) : Js unit :=
  fun w =>
    match clipboard_write P with
    | WriteUnavailable => Thrown ClipboardUnavailable w
    | WriteRejects => Thrown ClipboardRejected w
    | WriteResolves =>
        Returned tt (set_clipboard (blob_text <$> ⋃ items) w)
    end.
End Capabilities.

End Browser.

(** ** The two click handlers *)

Module Handlers.
Import Browser.
Import Markup.

Section WithPlatform.
Variable P : Platform.

Local Open Scope js_scope.

(** [copyFormattedLink], lines 72-81: the body of the [catch] block. *)
Definition fallback (plainText : string) : Js unit :=
  let* textArea := document_createElement "textarea" in
  set_value textArea plainText ;;;
  document_body_appendChild textArea ;;;
  select textArea ;;;
  let* _ := document_execCommand_copy P in
  document_body_removeChild textArea ;;;
  alert "URL copied as plain text".

(** [copyFormattedLink], lines 5-58: the HTML representation and the
    plain-text representation. *)
Definition link_payload : string * string :=
  let url := Markup.url in
  let buttonHtml := Markup.buttonHtml url in
  let fullHtml := Markup.fullHtml buttonHtml in
  let plainText := url in
  (fullHtml, plainText).

(** [copyFormattedLink], lines 4-82. *)
Definition copyFormattedLink : Js unit :=
  let '(fullHtml, plainText) := link_payload in
  try_catch
    (let htmlContent := mkBlob [fullHtml] "text/html" in
     let textContent := mkBlob [plainText] "text/plain" in
     navigator_clipboard_write P
       [ <[ "text/html" := htmlContent ]>
           {[ "text/plain" := textContent ]} ] ;;;
     alert "Copied formatted link!")
    (fun err => fallback plainText).

(** [copyStyledLink], lines 107-131: the container is built, attached
    and selected. *)
Definition select_container : Js (nat * option unit) :=
  let html := Markup.html in
  let* container := document_createElement "div" in
  set_innerHTML container html ;;;
  set_style container "position" "fixed" ;;;
  set_style container "opacity" "0" ;;;
  set_contentEditable container "true" ;;;
  document_body_appendChild container ;;;
  let* range := document_createRange in
  let range := selectNodeContents range container in
  let* selection := window_getSelection in
  optional_call selection removeAllRanges ;;;
  optional_call selection (addRange range) ;;;
  ret (container, selection).

(** [copyStyledLink], lines 133-142. *)
Definition copy_and_report : Js unit :=
  try_catch
    (let* success := document_execCommand_copy P in
     if success then alert "Styled link copied! Paste into Outlook!"
     else console_error "Copy command was unsuccessful" None)
    (fun err => console_error "Copy failed" (Some err)).

(** [copyStyledLink], lines 106-146. *)
Definition copyStyledLink : Js unit :=
  let* selected := select_container in
  let '(container, selection) := selected in
  copy_and_report ;;;
  optional_call selection removeAllRanges ;;;
  document_body_removeChild container.

End WithPlatform.



End Handlers.

(** * Properties *)

Import Browser Handlers.

(** ** Evaluating a handler on an arbitrary world *)

Ltac run :=
  unfold copyFormattedLink, link_payload, fallback, copyStyledLink,
    select_container, copy_and_report, navigator_clipboard_write,
    document_execCommand_copy, document_createElement, set_value,
    set_innerHTML, set_style, set_contentEditable, update_element,
    document_body_appendChild, document_body_removeChild, select,
    document_createRange, selectNodeContents, window_getSelection,
    removeAllRanges, addRange, optional_call, alert, console_error,
    plain_text, html_text, bind, try_catch, ret, throw;
  cbn [world_of returns
       clipboard heap next_node body selection selected_control alerts console
       set_clipboard set_heap set_body set_selection set_selected_control
       clipboard_write exec_copy
       tagName value innerHTML style contentEditable
       fmap option_fmap option_map app].

(** ** Children of the body *)

Lemma elem_of_without (m n : nat) (l : list nat) :
  m ∈ without n l <-> m ∈ l /\ m ≠ n.
Proof. unfold without. rewrite list_elem_of_filter. tauto. Qed.

Lemma appended_is_child (n : nat) (l : list nat) :
  n ∈ (without n l ++ [n])%list.
Proof. apply elem_of_app. right. apply list_elem_of_singleton. reflexivity. Qed.

Lemma removed_is_no_child (n : nat) (l : list nat) : n ∉ without n l.
Proof. rewrite elem_of_without. tauto. Qed.

Lemma without_twice (n : nat) (l : list nat) :
  without n (without n l) = without n l.
Proof.
  unfold without. induction l as [|x l IH]; [reflexivity|].
  rewrite filter_cons. destruct (decide (x ≠ n)) as [Hx|Hx].
  - rewrite filter_cons, decide_True by exact Hx. f_equal. exact IH.
  - exact IH.
Qed.

(** Appending a node and removing it again leaves the other children as
    they were, in their order. *)
Lemma without_appended (n : nat) (l : list nat) :
  without n (without n l ++ [n])%list = without n l.
Proof.
  unfold without. rewrite filter_app. fold (without n l).
  fold (without n (without n l)). rewrite without_twice.
  rewrite filter_cons, decide_False by (intros H; apply H; reflexivity).
  rewrite filter_nil. apply app_nil_r.
Qed.

Lemma without_fresh (n : nat) (l : list nat) : n ∉ l -> without n l = l.
Proof.
  intros Hn. unfold without. induction l as [|x l IH]; [reflexivity|].
  rewrite filter_cons. rewrite not_elem_of_cons in Hn. destruct Hn as [Hx Hl].
  rewrite decide_True by (intros ->; apply Hx; reflexivity).
  f_equal. apply IH, Hl.
Qed.

Ltac child :=
  match goal with
  | |- context [decide (?n ∈ (without ?n ?l ++ [?n])%list)] =>
      let Hc := fresh "Hc" in
      destruct (decide (n ∈ (without n l ++ [n])%list)) as [_|Hc];
      [| exfalso; apply Hc, appended_is_child]
  end.

Ltac js_step :=
  first [ child
        | progress unfold copied_payload
        | rewrite lookup_alter_eq
        | rewrite lookup_insert_eq
        | progress run ].

Ltac js_run := repeat js_step.

(** ** What a successful write leaves on the clipboard *)

Lemma append_empty (s : string) : (s +:+ EmptyString) = s.
Proof.
  induction s as [|c s IH]; [reflexivity|].
  change (String c (s +:+ EmptyString) = String c s). f_equal. exact IH.
Qed.

Lemma blob_text_single (s ty : string) : blob_text (mkBlob [s] ty) = s.
Proof. unfold blob_text. cbn [blob_parts foldr]. apply append_empty. Qed.

Lemma written_clipboard (h t : string) :
  blob_text <$> ⋃ [ <["text/html" := mkBlob [h] "text/html"]>
                      ({["text/plain" := mkBlob [t] "text/plain"]} : gmap string Blob) ]
  = <["text/html" := h]> {["text/plain" := t]}.
Proof.
  cbn [union_list foldr]. rewrite (right_id ∅ (∪)).
  rewrite fmap_insert, map_fmap_singleton, !blob_text_single. reflexivity.
Qed.

(** The outcome of [copyFormattedLink] when the write resolves. *)
Lemma copyFormattedLink_written (P : Platform) (w : World) :
  clipboard_write P = WriteResolves ->
  returns (copyFormattedLink P w) = true
  /\ clipboard (world_of (copyFormattedLink P w))
     = <["text/html" := Markup.fullHtml (Markup.buttonHtml Markup.url)]>
         {["text/plain" := Markup.url]}
  /\ alerts (world_of (copyFormattedLink P w))
     = (alerts w ++ ["Copied formatted link!"])%list
  /\ body (world_of (copyFormattedLink P w)) = body w.
Proof.
  intros Hw. destruct P as [wr ex]; cbn in Hw; subst wr. run.
  rewrite written_clipboard. repeat split; reflexivity.
Qed.

(** When the write fails, [copyFormattedLink] is its fallback. *)
Lemma copyFormattedLink_falls_back (P : Platform) (w : World) :
  clipboard_write P ≠ WriteResolves ->
  copyFormattedLink P w = fallback P Markup.url w.
Proof.
  intros Hw. destruct P as [[| |] ex]; cbn in Hw; [congruence| |]; reflexivity.
Qed.

(** ** The fallback of [copyFormattedLink] *)

(** When the copy command does not throw, the fallback returns. *)
Lemma fallback_returns (P : Platform) (t : string) (w : World) :
  exec_copy P ≠ CopyThrows -> returns (fallback P t w) = true.
Proof.
  intros Hc. destruct P as [wr [| |]]; cbn in Hc; [| |congruence]; js_run; reflexivity.
Qed.

(** When the copy command does not throw, the textarea is removed. *)
Lemma fallback_removes_textarea (P : Platform) (t : string) (w : World) :
  exec_copy P ≠ CopyThrows -> next_node w ∉ body (world_of (fallback P t w)).
Proof.
  intros Hc. destruct P as [wr [| |]]; cbn in Hc; [| |congruence]; js_run;
    apply removed_is_no_child.
Qed.

(** When the copy command succeeds, the clipboard holds the text of the
    textarea and nothing else, and the notification is shown. *)
Lemma fallback_copies (P : Platform) (t : string) (w : World) :
  exec_copy P = CopyTrue ->
  clipboard (world_of (fallback P t w)) = {[ "text/plain" := t ]}
  /\ alerts (world_of (fallback P t w)) = (alerts w ++ ["URL copied as plain text"])%list.
Proof.
  intros Hc. destruct P as [wr ex]; cbn in Hc; subst ex. js_run. split; reflexivity.
Qed.

(** [copyFormattedLink] returns unless the copy command of the fallback
    throws. *)
Lemma copyFormattedLink_returns (P : Platform) (w : World) :
  exec_copy P ≠ CopyThrows -> returns (copyFormattedLink P w) = true.
Proof.
  intros Hc. destruct (decide (clipboard_write P = WriteResolves)) as [Hw|Hw].
  - apply (copyFormattedLink_written P w Hw).
  - rewrite (copyFormattedLink_falls_back P w Hw). apply fallback_returns, Hc.
Qed.

(** ** The run of [copyStyledLink]

    Every outcome of the copy command leads to the same end: the handler
    returns, the container is detached again and the selection is cleared;
    only the report differs. *)
Lemma copyStyledLink_run (P : Platform) (w : World) :
  let w' := world_of (copyStyledLink P w) in
  returns (copyStyledLink P w) = true
  /\ alerts w'
     = (alerts w ++
        match exec_copy P with
        | CopyTrue => ["Styled link copied! Paste into Outlook!"]
        | CopyFalse | CopyThrows => []
        end)%list
  /\ console w'
     = (console w ++
        match exec_copy P with
        | CopyTrue => []
        | CopyFalse => [("Copy command was unsuccessful", None)]
        | CopyThrows => [("Copy failed", Some CopyCommandError)]
        end)%list
  /\ body w' = without (next_node w) (body w)
  /\ selection w' = (fun _ => []) <$> selection w.
Proof.
  cbv zeta.
  destruct P as [wr [| |]]; destruct w as [cb hp nx bd [rs|] sc al co];
    run; child; run; rewrite ?app_nil_r, without_appended;
    repeat split; reflexivity.
Qed.

(** ** C1: the plain-text representation after a copy *)

(** C1, as stated, fails.  On a page with an empty clipboard,
    [copyStyledLink] leaves no plain-text representation at all when the
    copy command returns false, and leaves the rendered text of the anchor,
    not the URL, when the copy command returns true. *)
Lemma copy_plain_text_counterexample :
  plain_text (world_of (copyStyledLink (mkPlatform WriteResolves CopyFalse) empty_page))
    ≠ Some "https://example.com"
  /\ plain_text (world_of (copyStyledLink (mkPlatform WriteResolves CopyTrue) empty_page))
    ≠ Some "https://example.com".
Proof. split; vm_compute; discriminate. Qed.

(** C1, amended: for every invocation of [copyFormattedLink] in which the
    clipboard write resolves or the copy command of the fallback returns
    true, the plain-text representation of the clipboard equals the
    configured URL exactly once the operation completes. *)
Theorem copyFormattedLink_plain_text (P : Platform) (w : World) :
  clipboard_write P = WriteResolves \/ exec_copy P = CopyTrue ->
  plain_text (world_of (copyFormattedLink P w)) = Some Markup.url.
Proof.
  intros H. unfold plain_text.
  destruct (decide (clipboard_write P = WriteResolves)) as [Hw|Hw].
  - destruct (copyFormattedLink_written P w Hw) as (_ & -> & _).
    rewrite lookup_insert_ne by discriminate. apply lookup_singleton_eq.
  - destruct H as [H|H]; [contradiction|].
    rewrite (copyFormattedLink_falls_back P w Hw).
    rewrite (proj1 (fallback_copies P Markup.url w H)).
    apply lookup_singleton_eq.
Qed.

Lemma copyFormattedLink_plain_text_witness :
  (clipboard_write (mkPlatform WriteRejects CopyTrue) = WriteResolves
   \/ exec_copy (mkPlatform WriteRejects CopyTrue) = CopyTrue)
  /\ plain_text (world_of (copyFormattedLink (mkPlatform WriteRejects CopyTrue) empty_page))
     = Some Markup.url.
Proof.
  assert (H : clipboard_write (mkPlatform WriteRejects CopyTrue) = WriteResolves
              \/ exec_copy (mkPlatform WriteRejects CopyTrue) = CopyTrue)
    by (right; reflexivity).
  split; [exact H|].
  exact (copyFormattedLink_plain_text (mkPlatform WriteRejects CopyTrue) empty_page H).
Defined.

(** ** C2: failures inside [copyFormattedLink] *)

(** C2, at the failing outcome: when the clipboard write rejects and the
    copy command of the fallback throws, the error leaves
    [copyFormattedLink] (the promise of the handler rejects) and no
    notification has been shown.  The claim asks for every failure to be
    caught; [copyStyledLink] does catch this one. *)
Theorem copyFormattedLink_throws_past_boundary (w : World) :
  exists w', copyFormattedLink (mkPlatform WriteRejects CopyThrows) w
             = Thrown CopyCommandError w'
             /\ alerts w' = alerts w.
Proof. eexists. run. split; reflexivity. Qed.

(** ** C3: the temporary container is removed *)

(** [copyStyledLink] removes its container on every outcome. *)
Lemma copyStyledLink_removes_container (P : Platform) (w : World) :
  returns (copyStyledLink P w) = true
  /\ next_node w ∉ body (world_of (copyStyledLink P w)).
Proof.
  destruct (copyStyledLink_run P w) as (Hr & _ & _ & Hb & _).
  split; [exact Hr|]. rewrite Hb. apply removed_is_no_child.
Qed.

(** On a page where the identity of the new container is not in use, the
    children of the body are afterwards exactly what they were. *)
Lemma copyStyledLink_restores_body (P : Platform) (w : World) :
  next_node w ∉ body w -> body (world_of (copyStyledLink P w)) = body w.
Proof.
  intros Hn. destruct (copyStyledLink_run P w) as (_ & _ & _ & Hb & _).
  rewrite Hb. apply without_fresh, Hn.
Qed.

(** C3, at the failing outcome: when the clipboard write rejects and the
    copy command of the fallback throws, the textarea that
    [copyFormattedLink] appended is still a child of the body when the
    operation ends.  The claim asks for its removal on every outcome;
    [copyStyledLink] does remove its container on every outcome
    ([copyStyledLink_removes_container]). *)
Theorem copyFormattedLink_leaves_textarea (w : World) :
  let w' := world_of (copyFormattedLink (mkPlatform WriteRejects CopyThrows) w) in
  next_node w ∈ body w'
  /\ tagName <$> heap w' !! next_node w = Some "textarea".
Proof.
  cbv zeta. js_run. split; [apply appended_is_child | reflexivity].
Qed.

(** ** C4: the fallback scenario *)

(** C4, as stated, fails.  With the write rejected and the copy command
    successful, the plain-text slot does not hold [https://example.com]: it
    holds the URL configured in [copyFormattedLink].  With the write
    rejected and the copy command returning false, the notification is
    shown and the plain-text slot holds nothing. *)
Lemma fallback_scenario_counterexample :
  plain_text (world_of (copyFormattedLink (mkPlatform WriteRejects CopyTrue) empty_page))
    ≠ Some "https://example.com"
  /\ plain_text (world_of (copyFormattedLink (mkPlatform WriteRejects CopyFalse) empty_page))
    ≠ Some "https://example.com".
Proof. split; vm_compute; discriminate. Qed.

(** C4, amended: where the multi-format write is unavailable or rejects and
    the copy command of the fallback returns true, [copyFormattedLink]
    leaves the configured URL, [https://your-domain.com/your-path], in the
    plain-text slot of the clipboard and displays the notification
    [URL copied as plain text]. *)
Theorem copyFormattedLink_fallback_scenario (P : Platform) (w : World) :
  clipboard_write P ≠ WriteResolves ->
  exec_copy P = CopyTrue ->
  plain_text (world_of (copyFormattedLink P w))
    = Some "https://your-domain.com/your-path"
  /\ alerts (world_of (copyFormattedLink P w))
    = (alerts w ++ ["URL copied as plain text"])%list.
Proof.
  intros Hw Hc. rewrite (copyFormattedLink_falls_back P w Hw).
  destruct (fallback_copies P Markup.url w Hc) as [Hcb Hal].
  unfold plain_text. rewrite Hcb, Hal. split; [|reflexivity].
  apply lookup_singleton_eq.
Qed.

Lemma copyFormattedLink_fallback_scenario_witness :
  clipboard_write (mkPlatform WriteRejects CopyTrue) ≠ WriteResolves
  /\ exec_copy (mkPlatform WriteRejects CopyTrue) = CopyTrue
  /\ plain_text (world_of (copyFormattedLink (mkPlatform WriteRejects CopyTrue) empty_page))
     = Some "https://your-domain.com/your-path"
  /\ alerts (world_of (copyFormattedLink (mkPlatform WriteRejects CopyTrue) empty_page))
     = (alerts empty_page ++ ["URL copied as plain text"])%list.
Proof.
  assert (Hw : clipboard_write (mkPlatform WriteRejects CopyTrue) ≠ WriteResolves)
    by discriminate.
  assert (Hc : exec_copy (mkPlatform WriteRejects CopyTrue) = CopyTrue)
    by reflexivity.
  split; [exact Hw|]. split; [exact Hc|].
  exact (copyFormattedLink_fallback_scenario
           (mkPlatform WriteRejects CopyTrue) empty_page Hw Hc).
Defined.

(** ** C5: what the clipboard holds after [copyFormattedLink] *)

(** C5, as stated, fails: with the write rejected and the copy command
    returning false, [copyFormattedLink] returns with the clipboard exactly
    as it was; on a page with an empty clipboard it holds neither an HTML
    nor a plain-text representation. *)
Lemma clipboard_modified_counterexample :
  let o := copyFormattedLink (mkPlatform WriteRejects CopyFalse) empty_page in
  returns o = true
  /\ clipboard (world_of o) = clipboard empty_page
  /\ plain_text (world_of o) = None
  /\ html_text (world_of o) = None.
Proof. vm_compute. repeat split; reflexivity. Qed.

(** C5, amended: after [copyFormattedLink] returns from an invocation in
    which the write resolves or the copy command of the fallback returns
    true, the clipboard contains either (a) both the HTML and the plain-text
    representation, when the write resolved, or (b) the plain-text
    representation only; the content is the one written by the operation,
    whatever the clipboard held before. *)
Theorem copyFormattedLink_clipboard (P : Platform) (w : World) :
  clipboard_write P = WriteResolves \/ exec_copy P = CopyTrue ->
  returns (copyFormattedLink P w) = true
  /\ clipboard (world_of (copyFormattedLink P w))
     = if decide (clipboard_write P = WriteResolves)
       then <["text/html" := fst link_payload]> {["text/plain" := snd link_payload]}
       else {["text/plain" := snd link_payload]}.
Proof.
  intros H. destruct (decide (clipboard_write P = WriteResolves)) as [Hw|Hw].
  - destruct (copyFormattedLink_written P w Hw) as (Hr & Hcb & _).
    split; [exact Hr | exact Hcb].
  - destruct H as [H|H]; [contradiction|]. split.
    + apply copyFormattedLink_returns. rewrite H. discriminate.
    + rewrite (copyFormattedLink_falls_back P w Hw).
      apply (fallback_copies P Markup.url w H).
Qed.

Lemma copyFormattedLink_clipboard_witness :
  (clipboard_write (mkPlatform WriteResolves CopyFalse) = WriteResolves
   \/ exec_copy (mkPlatform WriteResolves CopyFalse) = CopyTrue)
  /\ returns (copyFormattedLink (mkPlatform WriteResolves CopyFalse) empty_page) = true
  /\ clipboard (world_of (copyFormattedLink (mkPlatform WriteResolves CopyFalse) empty_page))
     = if decide (clipboard_write (mkPlatform WriteResolves CopyFalse) = WriteResolves)
       then <["text/html" := fst link_payload]> {["text/plain" := snd link_payload]}
       else {["text/plain" := snd link_payload]}.
Proof.
  assert (H : clipboard_write (mkPlatform WriteResolves CopyFalse) = WriteResolves
              \/ exec_copy (mkPlatform WriteResolves CopyFalse) = CopyTrue)
    by (left; reflexivity).
  split; [exact H|].
  exact (copyFormattedLink_clipboard (mkPlatform WriteResolves CopyFalse) empty_page H).
Defined.

(** ** The template, for any URL

    The interpolated URL ends up as the [href] of both anchors whatever it
    is, as long as it holds no double quote, which would end the attribute,
    and no [<], which could open a tag of its own. *)

Lemma append_assoc (x y z : string) : (x +:+ y) +:+ z = x +:+ (y +:+ z).
Proof.
  induction x as [|c x IH]; [reflexivity|].
  change (String c ((x +:+ y) +:+ z) = String c (x +:+ (y +:+ z))).
  f_equal. exact IH.
Qed.

Lemma append_snoc (v : string) (c : ascii) (u : string) :
  Text.snoc v c +:+ u = v +:+ String c u.
Proof. unfold Text.snoc. rewrite append_assoc. reflexivity. Qed.

Lemma opens_anchor_other (c : ascii) (s : string) :
  Ascii.eqb c "<" = false -> Html.opens_anchor (String c s) = None.
Proof.
  destruct c as [[] [] [] [] [] [] [] []]; intros H;
    try reflexivity; discriminate H.
Qed.

Section AnyUrl.
Variable u : string.
Hypothesis no_quote : Text.has_char (ascii_of_nat 34) u = false.
Hypothesis no_angle : Text.has_char "<" u = false.

(** Text without [<] holds no anchor and is skipped by the scan. *)
Lemma anchors_skip (v s : string) :
  Text.has_char "<" v = false -> Html.anchors (v +:+ s) = Html.anchors s.
Proof.
  induction v as [|c v IH]; intros H; [reflexivity|].
  cbn [Text.has_char] in H. apply orb_false_elim in H as [Hc Hv].
  change (String c v +:+ s) with (String c (v +:+ s)).
  cbn [Html.anchors]. rewrite (opens_anchor_other c _ Hc). apply IH, Hv.
Qed.

(** Inside a quoted value, text without a double quote is read into the
    value, up to the closing quote. *)
Lemma start_tag_value (n v x rest : string) :
  Text.has_char (ascii_of_nat 34) x = false ->
  Html.start_tag (Html.InValue n v) (x +:+ String (ascii_of_nat 34) rest)
  = let '(attrs, rest') := Html.start_tag Html.BeforeName rest in
    ((n, v +:+ x) :: attrs, rest').
Proof.
  revert v. induction x as [|c x IH]; intros v H.
  - rewrite append_empty. reflexivity.
  - cbn [Text.has_char] in H. apply orb_false_elim in H as [Hc Hx].
    change (String c x +:+ String (ascii_of_nat 34) rest)
      with (String c (x +:+ String (ascii_of_nat 34) rest)).
    cbn [Html.start_tag]. rewrite Hc, (IH _ Hx), append_snoc. reflexivity.
Qed.

#[local] Arguments String.append !_ _ : simpl nomatch.

Lemma template_hrefs :
  map Html.href (Html.anchors (Markup.fullHtml (Markup.buttonHtml u)))
  = [Some u; Some u].
Proof.
  unfold Markup.fullHtml, Markup.buttonHtml, Text.unlines, Text.q, Text.dq, Text.nl.
  rewrite !append_assoc. simpl.
  rewrite (start_tag_value _ _ _ _ no_quote), (anchors_skip _ _ no_angle). simpl.
  rewrite (start_tag_value _ _ _ _ no_quote), (anchors_skip _ _ no_angle). simpl.
  reflexivity.
Qed.

End AnyUrl.

(** ** The anchors of the constructed HTML *)

Lemma link_payload_anchors :
  map Html.href (Html.anchors (fst link_payload))
  = [Some Markup.url; Some Markup.url].
Proof. apply template_hrefs; reflexivity. Qed.

Lemma all_of_map {A B : Type} (f : A -> B) (l : list A) (x : B) (n : nat) :
  map f l = replicate n x -> Forall (fun a => f a = x) l.
Proof.
  revert n. induction l as [|a l IH]; intros n H; [constructor|].
  destruct n as [|n]; [discriminate H|].
  injection H as Ha Hl. constructor; [exact Ha | exact (IH n Hl)].
Qed.

Lemma head_of_map {A B : Type} (f : A -> B) (l : list A) (x : B) (xs : list B) :
  map f l = x :: xs -> exists a, a ∈ l /\ f a = x.
Proof.
  destruct l as [|a l]; intros H; [discriminate H|].
  injection H as Ha _. exists a. split; [apply list_elem_of_here | exact Ha].
Qed.

(** ** C6: both representations carry the same URL *)

(** C6: the plain text that [copyFormattedLink] constructs equals the URL,
    and every anchor of the HTML it constructs has that URL as its [href]:
    the anchor of the [mso] conditional branch, which ends at
    [<![endif]-->], and the anchor of the standard branch after it. *)
Theorem link_payload_same_url :
  snd link_payload = Markup.url
  /\ Forall (fun a => Html.href a = Some (snd link_payload))
            (Html.anchors (fst link_payload))
  /\ exists mso standard,
       Text.split_on "<![endif]-->" (fst link_payload) = Some (mso, standard)
       /\ map Html.href (Html.anchors mso) = [Some (snd link_payload)]
       /\ map Html.href (Html.anchors standard) = [Some (snd link_payload)].
Proof.
  split; [reflexivity|]. split.
  - apply (all_of_map _ _ _ 2). exact link_payload_anchors.
  - exists (fst (default (EmptyString, EmptyString)
                    (Text.split_on "<![endif]-->" (fst link_payload)))).
    exists (snd (default (EmptyString, EmptyString)
                    (Text.split_on "<![endif]-->" (fst link_payload)))).
    split; [|split]; vm_compute; reflexivity.
Qed.

(** ** C7: the HTML representation after a successful write *)

(** C7: whenever the multi-format write of [copyFormattedLink] succeeds, the
    HTML representation on the clipboard has an anchor whose [href] is the
    configured URL. *)
Theorem copyFormattedLink_html_anchor (P : Platform) (w : World) :
  clipboard_write P = WriteResolves ->
  exists h a,
    html_text (world_of (copyFormattedLink P w)) = Some h
    /\ a ∈ Html.anchors h
    /\ Html.href a = Some Markup.url.
Proof.
  intros Hw. destruct (copyFormattedLink_written P w Hw) as (_ & Hcb & _).
  destruct (head_of_map _ _ _ _ link_payload_anchors) as (a & Ha & Hhref).
  exists (fst link_payload), a. unfold html_text. rewrite Hcb.
  split; [apply lookup_insert_eq|]. split; [exact Ha | exact Hhref].
Qed.

Lemma copyFormattedLink_html_anchor_witness :
  clipboard_write (mkPlatform WriteResolves CopyTrue) = WriteResolves
  /\ exists h a,
       html_text (world_of (copyFormattedLink (mkPlatform WriteResolves CopyTrue) empty_page))
         = Some h
       /\ a ∈ Html.anchors h
       /\ Html.href a = Some Markup.url.
Proof.
  assert (Hw : clipboard_write (mkPlatform WriteResolves CopyTrue) = WriteResolves)
    by reflexivity.
  split; [exact Hw|].
  exact (copyFormattedLink_html_anchor (mkPlatform WriteResolves CopyTrue) empty_page Hw).
Defined.

(** ** C8: what [copyStyledLink] selects *)

Lemma styled_link_text : Html.innerText Markup.html = "Click Me".
Proof. vm_compute. reflexivity. Qed.

Lemma styled_link_markup :
  Html.is_styled_anchor Markup.html "Click Me" "https://example.com" = true.
Proof. vm_compute. reflexivity. Qed.

(** C8, as stated, fails.  On a page where [window.getSelection()] is null
    the calls of lines 130 and 131 are skipped through [?.]: after the
    container is attached nothing is selected, the copy command has nothing
    of the handler to take, and with a copy command that returns true the
    clipboard holds no HTML representation at all afterwards. *)
Lemma styled_anchor_counterexample :
  ranges (world_of (select_container (set_selection None empty_page))) = []
  /\ copied_payload (world_of (select_container (set_selection None empty_page)))
     = None
  /\ ~ exists h,
        html_text (world_of (copyStyledLink (mkPlatform WriteResolves CopyTrue)
                               (set_selection None empty_page))) = Some h
        /\ Html.is_styled_anchor h "Click Me" "https://example.com" = true.
Proof.
  split; [vm_compute; reflexivity|]. split; [vm_compute; reflexivity|].
  intros (h & Hh & _). vm_compute in Hh. discriminate Hh.
Qed.

(** C8, amended: on a page where [window.getSelection()] returns a selection
    object, [copyStyledLink] attaches its container and makes its contents
    the one selected range; what the copy command takes from that selection
    is markup for one styled anchor labelled [Click Me] with target
    [https://example.com], with [Click Me] as its plain text, and it is what
    the clipboard holds after the operation when the copy command
    succeeds. *)
Theorem copyStyledLink_selects_styled_anchor (P : Platform) (w : World) :
  is_Some (selection w) ->
  exists container w1 payload h,
    select_container w = Returned (container, Some tt) w1
    /\ container ∈ body w1
    /\ selection w1 = Some [NodeContents container]
    /\ copied_payload w1 = Some payload
    /\ payload !! "text/html" = Some h
    /\ payload !! "text/plain" = Some "Click Me"
    /\ Html.is_styled_anchor h "Click Me" "https://example.com" = true
    /\ (exec_copy P = CopyTrue ->
        clipboard (world_of (copyStyledLink P w)) = payload).
Proof.
  intros [rs Hs]. destruct w as [cb hp nx bd sel sc al co].
  cbn [selection] in Hs. subst sel.
  eexists _, _, _, Markup.html. split; [run; reflexivity|].
  split; [apply appended_is_child|]. split; [reflexivity|].
  split; [js_run; reflexivity|].
  split; [apply lookup_insert_eq|].
  split; [rewrite lookup_insert_ne by discriminate;
          rewrite lookup_singleton_eq; f_equal; exact styled_link_text|].
  split; [exact styled_link_markup|]. intros Hc.
  destruct P as [wr ex]. cbn [exec_copy] in Hc. subst ex.
  js_run. reflexivity.
Qed.

Lemma copyStyledLink_selects_styled_anchor_witness :
  is_Some (selection empty_page)
  /\ exists container w1 payload h,
       select_container empty_page = Returned (container, Some tt) w1
       /\ container ∈ body w1
       /\ selection w1 = Some [NodeContents container]
       /\ copied_payload w1 = Some payload
       /\ payload !! "text/html" = Some h
       /\ payload !! "text/plain" = Some "Click Me"
       /\ Html.is_styled_anchor h "Click Me" "https://example.com" = true
       /\ (exec_copy (mkPlatform WriteResolves CopyTrue) = CopyTrue ->
           clipboard (world_of (copyStyledLink (mkPlatform WriteResolves CopyTrue) empty_page))
           = payload).
Proof.
  assert (Hs : is_Some (selection empty_page)) by (exists []; reflexivity).
  split; [exact Hs|].
  exact (copyStyledLink_selects_styled_anchor
           (mkPlatform WriteResolves CopyTrue) empty_page Hs).
Defined.

(** ** C9: how [copyStyledLink] reports *)

(** C9: [copyStyledLink] always returns; a notification is shown exactly
    when the copy command returns true; a copy command that returns false
    or throws adds one entry to the console and nothing else; and the body
    is left without the container, so that nothing of a failure shows. *)
Theorem copyStyledLink_reports (P : Platform) (w : World) :
  let w' := world_of (copyStyledLink P w) in
  returns (copyStyledLink P w) = true
  /\ alerts w'
     = (alerts w ++
        match exec_copy P with
        | CopyTrue => ["Styled link copied! Paste into Outlook!"]
        | CopyFalse | CopyThrows => []
        end)%list
  /\ console w'
     = (console w ++
        match exec_copy P with
        | CopyTrue => []
        | CopyFalse => [("Copy command was unsuccessful", None)]
        | CopyThrows => [("Copy failed", Some CopyCommandError)]
        end)%list
  /\ body w' = without (next_node w) (body w).
Proof.
  cbv zeta. destruct (copyStyledLink_run P w) as (Hr & Ha & Hc & Hb & _).
  repeat split; assumption.
Qed.

(** ** C10: the selection after [copyStyledLink] *)

(** C10: when [copyStyledLink] returns, on every outcome, the document
    selection has no range: the ranges it had before the call are gone. *)
Theorem copyStyledLink_clears_selection (P : Platform) (w : World) :
  let w' := world_of (copyStyledLink P w) in
  returns (copyStyledLink P w) = true
  /\ ranges w' = []
  /\ selection w' = (fun _ => []) <$> selection w.
Proof.
  cbv zeta. destruct (copyStyledLink_run P w) as (Hr & _ & _ & _ & Hs).
  split; [exact Hr|]. split; [|exact Hs].
  unfold ranges. rewrite Hs. destruct (selection w); reflexivity.
Qed.

(** * Further properties of the handlers *)

(** ** The run of the fallback *)

Lemma fallback_run (P : Platform) (t : string) (w : World) :
  let w' := world_of (fallback P t w) in
  returns (fallback P t w)
  = match exec_copy P with CopyThrows => false | CopyTrue | CopyFalse => true end
  /\ alerts w'
     = (alerts w ++
        match exec_copy P with
        | CopyThrows => []
        | CopyTrue | CopyFalse => ["URL copied as plain text"]
        end)%list
  /\ console w' = console w
  /\ body w'
     = match exec_copy P with
       | CopyThrows => (without (next_node w) (body w) ++ [next_node w])%list
       | CopyTrue | CopyFalse => without (next_node w) (body w)
       end
  /\ selection w' = selection w
  /\ clipboard w'
     = match exec_copy P with
       | CopyTrue => {[ "text/plain" := t ]}
       | CopyFalse | CopyThrows => clipboard w
       end
  /\ next_node w' = S (next_node w).
Proof.
  cbv zeta. destruct P as [wr [| |]]; js_run;
    rewrite ?app_nil_r, ?without_appended; repeat split; reflexivity.
Qed.

(** The write resolved: nothing of the document is touched. *)
Lemma copyFormattedLink_written_frame (P : Platform) (w : World) :
  clipboard_write P = WriteResolves ->
  let w' := world_of (copyFormattedLink P w) in
  heap w' = heap w /\ next_node w' = next_node w /\ body w' = body w
  /\ selection w' = selection w /\ selected_control w' = selected_control w
  /\ console w' = console w.
Proof.
  intros Hw. destruct P as [wr ex]; cbn in Hw; subst wr. run.
  repeat split; reflexivity.
Qed.

(** ** Pages that stay well formed *)



Lemma copyStyledLink_next_node (P : Platform) (w : World) :
  next_node (world_of (copyStyledLink P w)) = S (next_node w)
  /\ clipboard (world_of (copyStyledLink P w))
     = match exec_copy P with
       | CopyTrue =>
           default (clipboard w)
             (copied_payload (world_of (select_container w)))
       | CopyFalse | CopyThrows => clipboard w
       end.
Proof.
  destruct P as [wr [| |]]; destruct w as [cb hp nx bd [rs|] sc al co];
    run; child; run; split; reflexivity.
Qed.



(** ** X1: the template, for a URL that needs no escaping *)

(** X1: for every URL without a double quote, without [&] and without [<],
    the markup that the templates of [copyFormattedLink] build has exactly
    two anchors, and the quoted [href] value of both is that URL, character
    for character.  Such a URL holds no character reference for a consumer
    of the markup to decode and nothing that ends the attribute, so the
    target of both anchors is the URL of the plain text.  ([<] is excluded
    because the anchors are read by a scan of the text.) *)
Theorem template_embeds_url (u : string) :
  Text.has_char (ascii_of_nat 34) u = false ->
  Text.has_char "&" u = false ->
  Text.has_char "<" u = false ->
  length (Html.anchors (Markup.fullHtml (Markup.buttonHtml u))) = 2
  /\ Forall (fun a => Html.href a = Some u)
            (Html.anchors (Markup.fullHtml (Markup.buttonHtml u))).
Proof.
  intros Hq _ Ha. pose proof (template_hrefs u Hq Ha) as Hh. split.
  - rewrite <- (length_map Html.href), Hh. reflexivity.
  - apply (all_of_map _ _ _ 2). exact Hh.
Qed.

Lemma template_embeds_url_witness :
  Text.has_char (ascii_of_nat 34) "https://example.com/a?b=1;c=2" = false
  /\ Text.has_char "&" "https://example.com/a?b=1;c=2" = false
  /\ Text.has_char "<" "https://example.com/a?b=1;c=2" = false
  /\ length (Html.anchors (Markup.fullHtml
               (Markup.buttonHtml "https://example.com/a?b=1;c=2"))) = 2
  /\ Forall (fun a => Html.href a = Some "https://example.com/a?b=1;c=2")
            (Html.anchors (Markup.fullHtml
               (Markup.buttonHtml "https://example.com/a?b=1;c=2"))).
Proof.
  assert (Hq : Text.has_char (ascii_of_nat 34) "https://example.com/a?b=1;c=2" = false)
    by reflexivity.
  assert (Hm : Text.has_char "&" "https://example.com/a?b=1;c=2" = false)
    by reflexivity.
  assert (Ha : Text.has_char "<" "https://example.com/a?b=1;c=2" = false)
    by reflexivity.
  split; [exact Hq|]. split; [exact Hm|]. split; [exact Ha|].
  exact (template_embeds_url "https://example.com/a?b=1;c=2" Hq Hm Ha).
Defined.

(** ** X2: a URL with a double quote *)


Section QuotedUrl.
Variables p r : string.
Hypothesis no_quote : Text.has_char (ascii_of_nat 34) p = false.

#[local] Arguments String.append !_ _ : simpl nomatch.


End QuotedUrl.



(** ** X3: when [copyFormattedLink] throws *)

(** X3: [copyFormattedLink] returns unless the clipboard write fails and the
    copy command of the fallback throws as well; in that one case the error
    that leaves the handler is the one of the copy command.  A failure of
    the clipboard write itself is never passed on. *)
Theorem copyFormattedLink_outcome (P : Platform) (w : World) :
  returns (copyFormattedLink P w)
  = bool_decide (clipboard_write P = WriteResolves \/ exec_copy P ≠ CopyThrows)
  /\ forall e w', copyFormattedLink P w = Thrown e w' -> e = CopyCommandError.
Proof.
  destruct P as [[| |] [| |]]; js_run; (split; [reflexivity|]);
    intros e w' H; try discriminate H; injection H as <- _; reflexivity.
Qed.

(** ** X4: the notifications of [copyFormattedLink] *)

(** X4: [copyFormattedLink] writes nothing to the console, and shows exactly
    one notification whenever it returns: [Copied formatted link!] when the
    write resolved, [URL copied as plain text] when it did not, whether the
    copy command of the fallback returned true or false.  It shows none when
    the copy command throws. *)
Theorem copyFormattedLink_notifications (P : Platform) (w : World) :
  let w' := world_of (copyFormattedLink P w) in
  console w' = console w
  /\ alerts w'
     = (alerts w ++
        match clipboard_write P, exec_copy P with
        | WriteResolves, _ => ["Copied formatted link!"]
        | _, CopyThrows => []
        | _, _ => ["URL copied as plain text"]
        end)%list.
Proof.
  cbv zeta. destruct (decide (clipboard_write P = WriteResolves)) as [Hw|Hw].
  - destruct (copyFormattedLink_written P w Hw) as (_ & _ & Ha & _).
    destruct (copyFormattedLink_written_frame P w Hw) as (_ & _ & _ & _ & _ & Hc).
    rewrite Hw. split; [exact Hc | exact Ha].
  - rewrite (copyFormattedLink_falls_back P w Hw).
    destruct (fallback_run P Markup.url w) as (_ & Ha & Hc & _).
    split; [exact Hc|]. rewrite Ha.
    destruct (clipboard_write P); [contradiction| |]; destruct (exec_copy P); reflexivity.
Qed.

(** ** X5: the clipboard when both ways fail *)

(** X5: when the clipboard write fails and the copy command of the fallback
    does not return true, [copyFormattedLink] leaves the clipboard exactly
    as it was. *)
Theorem copyFormattedLink_clipboard_untouched (P : Platform) (w : World) :
  clipboard_write P ≠ WriteResolves ->
  exec_copy P ≠ CopyTrue ->
  clipboard (world_of (copyFormattedLink P w)) = clipboard w.
Proof.
  intros Hw Hc. rewrite (copyFormattedLink_falls_back P w Hw).
  destruct (fallback_run P Markup.url w) as (_ & _ & _ & _ & _ & Hcb & _).
  rewrite Hcb. destruct (exec_copy P); [contradiction| |]; reflexivity.
Qed.

Lemma copyFormattedLink_clipboard_untouched_witness :
  clipboard_write (mkPlatform WriteUnavailable CopyFalse) ≠ WriteResolves
  /\ exec_copy (mkPlatform WriteUnavailable CopyFalse) ≠ CopyTrue
  /\ clipboard (world_of (copyFormattedLink (mkPlatform WriteUnavailable CopyFalse)
                            busy_page))
     = clipboard busy_page.
Proof.
  assert (Hw : clipboard_write (mkPlatform WriteUnavailable CopyFalse) ≠ WriteResolves)
    by discriminate.
  assert (Hc : exec_copy (mkPlatform WriteUnavailable CopyFalse) ≠ CopyTrue)
    by discriminate.
  split; [exact Hw|]. split; [exact Hc|].
  exact (copyFormattedLink_clipboard_untouched
           (mkPlatform WriteUnavailable CopyFalse)
           busy_page Hw Hc).
Defined.

(** ** X6: the document on the rich path *)

(** X6: when the clipboard write resolves, [copyFormattedLink] creates no
    element and touches nothing of the document: its objects, the children
    of the body, the selection and the selected text control are as
    before. *)
Theorem copyFormattedLink_rich_path_frame (P : Platform) (w : World) :
  clipboard_write P = WriteResolves ->
  let w' := world_of (copyFormattedLink P w) in
  heap w' = heap w /\ next_node w' = next_node w /\ body w' = body w
  /\ selection w' = selection w /\ selected_control w' = selected_control w.
Proof.
  intros Hw. cbv zeta.
  destruct (copyFormattedLink_written_frame P w Hw) as (H1 & H2 & H3 & H4 & H5 & _).
  repeat split; assumption.
Qed.

Lemma copyFormattedLink_rich_path_frame_witness :
  clipboard_write (mkPlatform WriteResolves CopyThrows) = WriteResolves
  /\ let w' := world_of (copyFormattedLink (mkPlatform WriteResolves CopyThrows) empty_page) in
     heap w' = heap empty_page /\ next_node w' = next_node empty_page
     /\ body w' = body empty_page
     /\ selection w' = selection empty_page
     /\ selected_control w' = selected_control empty_page.
Proof.
  assert (Hw : clipboard_write (mkPlatform WriteResolves CopyThrows) = WriteResolves)
    by reflexivity.
  split; [exact Hw|].
  exact (copyFormattedLink_rich_path_frame (mkPlatform WriteResolves CopyThrows) empty_page Hw).
Defined.

(** ** X7: the body after [copyFormattedLink] *)

(** X7: on a page where the node that [createElement] hands out is not a
    child of the body yet, every invocation of [copyFormattedLink] that
    returns leaves the children of the body exactly as they were, in their
    order. *)
Theorem copyFormattedLink_restores_body (P : Platform) (w : World) :
  next_node w ∉ body w ->
  clipboard_write P = WriteResolves \/ exec_copy P ≠ CopyThrows ->
  body (world_of (copyFormattedLink P w)) = body w.
Proof.
  intros Hn H. destruct (decide (clipboard_write P = WriteResolves)) as [Hw|Hw].
  - apply (copyFormattedLink_written_frame P w Hw).
  - destruct H as [H|H]; [contradiction|].
    rewrite (copyFormattedLink_falls_back P w Hw).
    destruct (fallback_run P Markup.url w) as (_ & _ & _ & Hb & _).
    rewrite Hb, (without_fresh _ _ Hn).
    destruct (exec_copy P); [reflexivity | reflexivity | contradiction].
Qed.

Lemma copyFormattedLink_restores_body_witness :
  (next_node busy_page ∉ body busy_page)
  /\ (clipboard_write (mkPlatform WriteRejects CopyFalse) = WriteResolves
      \/ exec_copy (mkPlatform WriteRejects CopyFalse) ≠ CopyThrows)
  /\ body (world_of (copyFormattedLink (mkPlatform WriteRejects CopyFalse)
                       busy_page))
     = body busy_page.
Proof.
  assert (Hn : next_node busy_page ∉ body busy_page)
    by (cbn; rewrite !not_elem_of_cons; repeat split;
        [lia | lia | apply not_elem_of_nil]).
  assert (H : clipboard_write (mkPlatform WriteRejects CopyFalse) = WriteResolves
              \/ exec_copy (mkPlatform WriteRejects CopyFalse) ≠ CopyThrows)
    by (right; discriminate).
  split; [exact Hn|]. split; [exact H|].
  exact (copyFormattedLink_restores_body (mkPlatform WriteRejects CopyFalse)
           busy_page Hn H).
Defined.

(** ** X8: the body after [copyStyledLink] *)

(** X8: on a page where the node that [createElement] hands out is not a
    child of the body yet, [copyStyledLink] leaves the children of the body
    exactly as they were, in their order, on every outcome of the copy
    command; the clipboard is as it was unless the copy command returned
    true. *)
Theorem copyStyledLink_leaves_page (P : Platform) (w : World) :
  next_node w ∉ body w ->
  body (world_of (copyStyledLink P w)) = body w
  /\ (exec_copy P ≠ CopyTrue ->
      clipboard (world_of (copyStyledLink P w)) = clipboard w).
Proof.
  intros Hn. destruct (copyStyledLink_run P w) as (_ & _ & _ & Hb & _).
  split; [rewrite Hb; apply without_fresh, Hn|]. intros Hc.
  rewrite (proj2 (copyStyledLink_next_node P w)).
  destruct (exec_copy P); [contradiction| |]; reflexivity.
Qed.

Lemma copyStyledLink_leaves_page_witness :
  (next_node busy_page ∉ body busy_page)
  /\ body (world_of (copyStyledLink (mkPlatform WriteResolves CopyThrows)
                       busy_page))
     = body busy_page
  /\ (exec_copy (mkPlatform WriteResolves CopyThrows) ≠ CopyTrue ->
      clipboard (world_of (copyStyledLink (mkPlatform WriteResolves CopyThrows)
                             busy_page))
      = clipboard busy_page).
Proof.
  assert (Hn : next_node busy_page ∉ body busy_page)
    by (cbn; rewrite !not_elem_of_cons; repeat split;
        [lia | lia | apply not_elem_of_nil]).
  split; [exact Hn|].
  exact (copyStyledLink_leaves_page (mkPlatform WriteResolves CopyThrows)
           busy_page Hn).
Defined.

(** ** X9 and X10: clicking again and again *)






(** ** X11: [copyStyledLink] without a selection object *)

(** X11: when [window.getSelection()] is null and no text control is
    selected, [copyStyledLink] selects nothing: even with a copy command that
    returns true the clipboard is as it was, and the notification of success
    is shown all the same. *)
Theorem copyStyledLink_without_selection (P : Platform) (w : World) :
  selection w = None ->
  selected_control w = None ->
  exec_copy P = CopyTrue ->
  clipboard (world_of (copyStyledLink P w)) = clipboard w
  /\ alerts (world_of (copyStyledLink P w))
     = (alerts w ++ ["Styled link copied! Paste into Outlook!"])%list
  /\ selection (world_of (copyStyledLink P w)) = None.
Proof.
  intros Hs Hc He. destruct P as [wr ex]. cbn [exec_copy] in He. subst ex.
  destruct w as [cb hp nx bd sel sc al co]. cbn [selection selected_control] in Hs, Hc.
  subst sel sc. run. child. run. repeat split; reflexivity.
Qed.

Lemma copyStyledLink_without_selection_witness :
  selection (set_selection None busy_page) = None
  /\ selected_control (set_selection None busy_page) = None
  /\ exec_copy (mkPlatform WriteResolves CopyTrue) = CopyTrue
  /\ clipboard (world_of (copyStyledLink (mkPlatform WriteResolves CopyTrue)
                            (set_selection None busy_page)))
     = clipboard (set_selection None busy_page)
  /\ alerts (world_of (copyStyledLink (mkPlatform WriteResolves CopyTrue)
                         (set_selection None busy_page)))
     = (alerts (set_selection None busy_page)
        ++ ["Styled link copied! Paste into Outlook!"])%list
  /\ selection (world_of (copyStyledLink (mkPlatform WriteResolves CopyTrue)
                            (set_selection None busy_page))) = None.
Proof.
  assert (Hs : selection (set_selection None busy_page) = None) by reflexivity.
  assert (Hc : selected_control (set_selection None busy_page) = None) by reflexivity.
  assert (He : exec_copy (mkPlatform WriteResolves CopyTrue) = CopyTrue) by reflexivity.
  split; [exact Hs|]. split; [exact Hc|]. split; [exact He|].
  exact (copyStyledLink_without_selection (mkPlatform WriteResolves CopyTrue)
           (set_selection None busy_page) Hs Hc He).
Defined.

(** ** X12 and X13: the temporary elements *)

(** X12: while the copy command of [copyStyledLink] runs, its container is
    the last child of the body, and it is a [div] holding the markup of the
    link, fixed in place, fully transparent and editable, whatever the page
    held before. *)
Theorem copyStyledLink_container (w : World) :
  let w1 := world_of (select_container w) in
  last (body w1) = Some (next_node w)
  /\ heap w1 !! next_node w
     = Some (mkElement "div" EmptyString Markup.html
               (<["opacity" := "0"]> (<["position" := "fixed"]> ∅)) "true").
Proof.
  cbv zeta. destruct w as [cb hp nx bd [rs|] sc al co]; js_run;
    (split; [apply last_snoc | reflexivity]).
Qed.

(** X13: whenever the clipboard write fails, the element that the fallback
    of [copyFormattedLink] creates is a [textarea] with the URL as its value
    and with no style at all: the handler does nothing to hide it or to move
    it off the screen. *)
Theorem fallback_textarea (P : Platform) (w : World) :
  clipboard_write P ≠ WriteResolves ->
  heap (world_of (copyFormattedLink P w)) !! next_node w
  = Some (mkElement "textarea" Markup.url EmptyString ∅ "inherit").
Proof.
  intros Hw. rewrite (copyFormattedLink_falls_back P w Hw).
  destruct P as [wr [| |]]; js_run; reflexivity.
Qed.

Lemma fallback_textarea_witness :
  clipboard_write (mkPlatform WriteRejects CopyTrue) ≠ WriteResolves
  /\ heap (world_of (copyFormattedLink (mkPlatform WriteRejects CopyTrue) busy_page))
       !! next_node busy_page
     = Some (mkElement "textarea" Markup.url EmptyString ∅ "inherit").
Proof.
  assert (Hw : clipboard_write (mkPlatform WriteRejects CopyTrue) ≠ WriteResolves)
    by discriminate.
  split; [exact Hw|].
  exact (fallback_textarea (mkPlatform WriteRejects CopyTrue) busy_page Hw).
Defined.
